(** * ALLKNN (dlib-ml binding): bounded Euclidean metric, sample staging, query driver

    Shallow embedding of [src/methods/dlibml/src/ALLKNN.cpp].

    - C++ [double] is IEEE-754 binary64, embedded as [spec_float] with the
      operations of [SpecFloat] at precision 53 and maximal exponent 1024
      (round to nearest, ties to even; overflow goes to an infinity).  Every
      operation is rounded on its own: no extended precision, no fused
      multiply-add.
    - [arma::mat] is a record of its dimensions and its column-major memory.
    - dlib's [matrix<double,0,1>] (a column vector) is a list of doubles.
    - Sizes and loop counters ([size_t], [arma::uword]) are [nat]: every
      counter stays below a dimension of the matrix, so none wraps.  The one
      conversion that does wrap, [int] to [size_t] for [k], is on [Z].
    - [mlpackMain] is a program in a small state-and-exception monad whose
      state is the trace of calls to the external collaborators (logger,
      timers, the dlib search). *)

From Stdlib Require Import ZArith List Bool Lia String.
From Stdlib Require Import Floats.SpecFloat.
From stdpp Require Import base list.

Local Open Scope Z_scope.

(** ** Binary64 arithmetic *)

Module Double.

Definition prec : Z := 53.
Definition emax : Z := 1024.

Definition double : Type := spec_float.

(** The literal [0] converted to [double], and
    [std::numeric_limits<double>::infinity()]. *)
Definition zero : double := S754_zero false.
Definition infinity : double := S754_infinity false.

Definition add : double -> double -> double := SFadd prec emax.
Definition sub : double -> double -> double := SFsub prec emax.
Definition mul : double -> double -> double := SFmul prec emax.
Definition sqrt : double -> double := SFsqrt prec emax.
Definition leb : double -> double -> bool := SFleb.
Definition ltb : double -> double -> bool := SFltb.

Definition is_nan (x : double) : bool :=
  match x with S754_nan => true | _ => false end.

(** [std::isfinite]: neither an infinity nor a NaN. *)
Definition is_finite (x : double) : bool :=
  match x with S754_zero _ | S754_finite _ _ _ => true | _ => false end.

(** A value that is representable in binary64. *)
Definition representable (x : double) : bool := valid_binary prec emax x.

(** [x] is not a NaN and carries the sign bit [s]. *)
Definition signed_as (s : bool) (x : double) : bool :=
  match x with
  | S754_zero s' | S754_infinity s' | S754_finite s' _ _ => Bool.eqb s s'
  | S754_nan => false
  end.

End Double.

Import Double.

(** ** dlib column vectors and the operations the metric calls *)

(** [matrix<double,0,1>]: a column vector whose length is fixed at run time. *)
Abbreviation sample_typ := (list double).

Definition all_finite (a : sample_typ) : bool := forallb is_finite a.

(** [a - b] on dlib matrices.  dlib requires both operands to have the same
    dimensions (a [DLIB_ASSERT]); [None] stands for a broken requirement. *)
Fixpoint matrix_subtract (a b : sample_typ) : option sample_typ :=
  match a, b with
  | [], [] => Some []
  | x :: a', y :: b' =>
      match matrix_subtract a' b' with
      | Some d => Some (sub x y :: d)
      | None => None
      end
  | _, _ => None
  end.

(** Modelled from the spec: dlib's [length_squared] is library code outside
    this repository; the spec gives it as [sum_j (a[j] - b[j])^2].  It is
    [sum(squared(m))], where [sum] starts from [0] and adds the entries in
    index order. *)
Definition squared (m : sample_typ) : sample_typ := map (fun x => mul x x) m.

Definition sum (m : sample_typ) : double := fold_left add m zero.

Definition length_squared (m : sample_typ) : double := sum (squared m).

(** ** The metric: [struct euclidean_distance] *)

Record euclidean_distance : Type := {
  lower : double;
  upper : double
}.

(** [euclidean_distance ()] *)
Definition euclidean_distance_default : euclidean_distance :=
  {| lower := zero; upper := infinity |}.

(** [euclidean_distance (l, u)] *)
Definition euclidean_distance_bounds (l u : double) : euclidean_distance :=
  {| lower := l; upper := u |}.

(** The local [len] of [operator()]: [std::sqrt(length_squared(a-b))]. *)
Definition len (a b : sample_typ) : option double :=
  match matrix_subtract a b with
  | Some d => Some (sqrt (length_squared d))
  | None => None
  end.

(** [operator() (a, b)] *)
Definition operator_call (f : euclidean_distance) (a b : sample_typ)
  : option double :=
  match len a b with
  | Some len =>
      if leb (lower f) len && leb len (upper f) then Some len
      else Some infinity
  | None => None
  end.

(** The formula of the spec, [sqrt(sum_j (a[j] - b[j])^2)], read in double
    arithmetic with the terms added in index order. *)
Fixpoint sum_squared_differences (acc : double) (a b : sample_typ) : double :=
  match a, b with
  | x :: a', y :: b' =>
      sum_squared_differences (add acc (mul (sub x y) (sub x y))) a' b'
  | _, _ => acc
  end.

Definition euclidean_formula (a b : sample_typ) : double :=
  sqrt (sum_squared_differences zero a b).

(** Some binary64 constants: 1.0, 2.0 and 2^600. *)
Definition one : double := S754_finite false 4503599627370496 (-52).
Definition two : double := S754_finite false 4503599627370496 (-51).
Definition two_pow_600 : double := S754_finite false 4503599627370496 548.

Local Close Scope Z_scope.

(** ** The loaded matrix: [arma::mat] *)

(** Armadillo stores a dense matrix column by column: entry (row [j], column
    [i]) is [mem[j + i * n_rows]]. *)
Record mat : Type := {
  n_rows : nat;
  n_cols : nat;
  mem : list double
}.

(** What the loader guarantees: as many entries as the dimensions say. *)
Definition mat_wf (M : mat) : Prop := length (mem M) = n_rows M * n_cols M.

(** [referenceData(j, i)]; [None] is an access outside the matrix's memory. *)
Definition mat_at (M : mat) (j i : nat) : option double :=
  mem M !! (j + i * n_rows M).

(** ** Staging: the loop of [mlpackMain] that fills [samples_train] *)

(** The local variables the staging loop reads and writes. *)
Record locals : Type := {
  referenceData : mat;
  m : sample_typ;
  samples_train : list sample_typ
}.

(** [m.set_size(n)]: [n] entries with unspecified contents [junk]. *)
Definition set_size (n : nat) (junk : nat -> double) : sample_typ :=
  map junk (seq 0 n).

(** The locals right after [m.set_size(referenceData.n_rows)]. *)
Definition locals_init (M : mat) (junk : nat -> double) : locals :=
  {| referenceData := M; m := set_size (n_rows M) junk; samples_train := [] |}.

(** A counted loop whose body may fail: [for (i = first; i < first + n; ++i)]. *)
Fixpoint for_each {S : Type} (body : nat -> S -> option S) (idx : list nat)
  (st : S) : option S :=
  match idx with
  | [] => Some st
  | i :: rest =>
      match body i st with
      | Some st' => for_each body rest st'
      | None => None
      end
  end.

(** [m(j) = referenceData(j, i);]  Reading outside the matrix or writing
    outside [m] is a failure. *)
Definition assign_entry (i j : nat) (st : locals) : option locals :=
  match mat_at (referenceData st) j i with
  | Some v =>
      if decide (j < length (m st))
      then Some {| referenceData := referenceData st;
                   m := <[j := v]> (m st);
                   samples_train := samples_train st |}
      else None
  | None => None
  end.

(** [for (size_t j = 0; j < referenceData.n_rows; ++j) m(j) = ...;] *)
Definition copy_column (i : nat) (st : locals) : option locals :=
  for_each (assign_entry i) (seq 0 (n_rows (referenceData st))) st.

(** [samples_train.push_back(m);] appends a copy of [m]. *)
Definition push_back (st : locals) : locals :=
  {| referenceData := referenceData st;
     m := m st;
     samples_train := samples_train st ++ [m st] |}.

(** The body of the outer loop. *)
Definition stage_column (i : nat) (st : locals) : option locals :=
  match copy_column i st with
  | Some st' => Some (push_back st')
  | None => None
  end.

(** [for (size_t i = 0; i < referenceData.n_cols; ++i) { ... }]
    The bound is read from the matrix, which the body never writes
    ([stage_column_matrix] below), so it is the same at every test. *)
Definition stage (st : locals) : option locals :=
  for_each stage_column (seq 0 (n_cols (referenceData st))) st.

(** The spec's first scenario: the 2 x 3 matrix with rows (0,1,2), (0,1,2). *)
Definition scenario_matrix : mat :=
  {| n_rows := 2; n_cols := 3; mem := [zero; zero; one; one; two; two] |}.

(** ** The query driver: [mlpackMain] *)

(** [size_t k = CLI::GetParam<int>("k")]: a 32-bit signed value converted to
    a 64-bit unsigned one, that is, reduced modulo 2^64. *)
Definition int_min : Z := (- 2 ^ 31)%Z.
Definition size_t_of_int (n : Z) : Z := (n mod 2 ^ 64)%Z.

(** The two command-line parameters. *)
Record cli : Type := {
  reference_file : string;
  k_param : Z
}.

(** dlib's [sample_pair]: two sample indices and their distance. *)
Record sample_pair : Type := {
  index1 : nat;
  index2 : nat;
  distance : double
}.

(** Calls to the external collaborators, in the order they happen. *)
Inductive event : Type :=
| Log_Info (file : string) (rows cols : nat)
| Timer_Start (name : string)
| Timer_Stop (name : string)
| Search_call (samples : list sample_typ) (dist : euclidean_distance) (k : Z).

(** How a call ends: it returns, or a C++ exception leaves it. *)
Inductive outcome (A : Type) : Type :=
| Returned (a : A)
| Thrown (what : string).
Arguments Returned {A} a.
Arguments Thrown {A} what.

(** Programs that extend the trace and may throw. *)
Definition prog (A : Type) : Type := list event -> outcome A * list event.

Definition ret {A : Type} (a : A) : prog A := fun t => (Returned a, t).

Definition bind {A B : Type} (c : prog A) (k : A -> prog B) : prog B :=
  fun t =>
    match c t with
    | (Returned a, t') => k a t'
    | (Thrown e, t') => (Thrown e, t')
    end.

Definition emit (e : event) : prog unit := fun t => (Returned tt, t ++ [e]).

Definition call {A : Type} (o : outcome A) : prog A := fun t => (o, t).

Definition checked {A : Type} (o : option A) : prog A :=
  fun t =>
    match o with
    | Some a => (Returned a, t)
    | None => (Thrown "index out of bounds", t)
    end.

Notation "'do' x <- c ; k" := (bind c (fun x => k))
  (at level 10, x name, c at level 100, k at level 200, only parsing).

Section Driver.

(** The external collaborators: mlpack's [data::Load] with [fatal = true],
    dlib's [find_k_nearest_neighbors], and the contents of fresh memory. *)
Variable Load : string -> outcome mat.
Variable find_k_nearest_neighbors :
  list sample_typ -> euclidean_distance -> Z -> outcome (list sample_pair).
Variable junk : nat -> double.

(** [void mlpackMain()]; the result is the local [out] at the end. *)
Definition mlpackMain (args : cli) : prog (list sample_pair) :=
  let referenceFile := reference_file args in
  let k := size_t_of_int (k_param args) in
  do referenceData <- call (Load referenceFile) ;
  do _ <- emit (Log_Info referenceFile (n_rows referenceData) (n_cols referenceData)) ;
  do st <- checked (stage (locals_init referenceData junk)) ;
  do _ <- emit (Timer_Start "Nearest_Neighbors") ;
  do _ <- emit (Search_call (samples_train st) euclidean_distance_default k) ;
  do out <- call (find_k_nearest_neighbors (samples_train st)
                 euclidean_distance_default k) ;
  do _ <- emit (Timer_Stop "Nearest_Neighbors") ;
  ret out.

End Driver.

(** Concrete collaborators and arguments used in the examples below. *)
Definition load_scenario : string -> outcome mat :=
  fun _ => Returned scenario_matrix.

Definition failing_search :
  list sample_typ -> euclidean_distance -> Z -> outcome (list sample_pair) :=
  fun _ _ _ => Thrown "search failed".

Definition empty_search :
  list sample_typ -> euclidean_distance -> Z -> outcome (list sample_pair) :=
  fun _ _ _ => Returned [].

Definition scenario_args : cli :=
  {| reference_file := "data.csv"; k_param := 1 |}.

Definition negative_args : cli :=
  {| reference_file := "data.csv"; k_param := -1 |}.

(** ** Descriptions used to state further properties *)

(** Column [i] of a matrix as a slice of its memory, and all its columns in
    order. *)
Definition column (M : mat) (i : nat) : sample_typ :=
  take (n_rows M) (drop (i * n_rows M) (mem M)).

Definition columns (M : mat) : list sample_typ :=
  map (column M) (seq 0 (n_cols M)).

(** The largest [int]. *)
Definition int_max : Z := (2 ^ 31 - 1)%Z.

Definition is_search_call (e : event) : bool :=
  match e with Search_call _ _ _ => true | _ => false end.

Definition is_returned {A : Type} (o : outcome A) : bool :=
  match o with Returned _ => true | Thrown _ => false end.

(** Every entry negated. *)
Definition negate (a : sample_typ) : sample_typ := map SFopp a.

(** ** The exact Euclidean distance, for comparison with the computed one *)

(** The exact value of a finite double, counted in units of 2^-1074 (the
    smallest positive double), so that it is an integer.  Infinities, NaN
    and values finer than the unit have none. *)
Definition exact_units (x : double) : option Z :=
  match x with
  | S754_zero _ => Some 0%Z
  | S754_finite s m e =>
      if (0 <=? e + 1074)%Z
      then Some (cond_Zopp s (Zpos m * 2 ^ (e + 1074)))%Z
      else None
  | _ => None
  end.

(** The exact [sum_j (a[j] - b[j])^2], in units of 2^-2148. *)
Fixpoint true_squared_distance (a b : sample_typ) : option Z :=
  match a, b with
  | [], [] => Some 0%Z
  | x :: a', y :: b' =>
      match exact_units x, exact_units y, true_squared_distance a' b' with
      | Some X, Some Y, Some T => Some ((X - Y) * (X - Y) + T)%Z
      | _, _, _ => None
      end
  | _, _ => None
  end.

(** The double [d] is exactly the true Euclidean distance of [a] and [b]. *)
Definition is_true_distance (d : double) (a b : sample_typ) : bool :=
  match exact_units d, true_squared_distance a b with
  | Some D, Some T => ((0 <=? D) && (D * D =? T))%Z
  | _, _ => false
  end.

(** The true distance of [a] and [b] is at least, at most, or above the
    non-negative finite double [c] (compared through the squares). *)
Definition true_distance_at_least (c : double) (a b : sample_typ) : bool :=
  match exact_units c, true_squared_distance a b with
  | Some C, Some T => ((0 <=? C) && (C * C <=? T))%Z
  | _, _ => false
  end.

Definition true_distance_at_most (c : double) (a b : sample_typ) : bool :=
  match exact_units c, true_squared_distance a b with
  | Some C, Some T => ((0 <=? C) && (T <=? C * C))%Z
  | _, _ => false
  end.

Definition true_distance_above (c : double) (a b : sample_typ) : bool :=
  match exact_units c, true_squared_distance a b with
  | Some C, Some T => ((0 <=? C) && (C * C <? T))%Z
  | _, _ => false
  end.

(** More binary64 constants: 2^601, 2^-600 and 2^-601. *)
Definition two_pow_601 : double := S754_finite false 4503599627370496 549.
Definition two_pow_m600 : double := S754_finite false 4503599627370496 (-652).
Definition two_pow_m601 : double := S754_finite false 4503599627370496 (-653).

(** * Verification *)

(** ** Facts about binary64 arithmetic *)

Module DoubleFacts.

Local Open Scope Z_scope.

(** *** Rounding never produces a NaN *)

Lemma shr_1_nonneg mrs : 0 <= shr_m mrs -> 0 <= shr_m (shr_1 mrs).
Proof.
  destruct mrs as [m r s]; destruct m as [|[p|p|]|[p|p|]]; simpl; lia.
Qed.

Lemma iter_shr_1_nonneg p :
  forall mrs, 0 <= shr_m mrs -> 0 <= shr_m (SpecFloat.iter_pos shr_1 p mrs).
Proof.
  induction p as [p IH|p IH|]; simpl; intros mrs H.
  - apply IH, IH, shr_1_nonneg, H.
  - apply IH, IH, H.
  - apply shr_1_nonneg, H.
Qed.

Lemma shr_nonneg mrs e n :
  0 <= shr_m mrs -> 0 <= shr_m (fst (shr mrs e n)).
Proof.
  intros H; destruct n; simpl; auto using iter_shr_1_nonneg.
Qed.

Lemma shr_record_of_loc_m m l : shr_m (shr_record_of_loc m l) = m.
Proof. destruct l as [|[]]; reflexivity. Qed.

Lemma shr_fexp_nonneg m e l :
  0 <= m -> 0 <= shr_m (fst (shr_fexp prec emax m e l)).
Proof.
  intros H; unfold shr_fexp; apply shr_nonneg.
  now rewrite shr_record_of_loc_m.
Qed.

Lemma round_nearest_even_nonneg m l :
  0 <= m -> 0 <= round_nearest_even m l.
Proof.
  intros H; destruct l as [|[]]; simpl; try lia.
  destruct (Z.even m); lia.
Qed.

Lemma binary_round_aux_signed s m e l :
  0 <= m -> signed_as s (binary_round_aux prec emax s m e l) = true.
Proof.
  intros H; unfold binary_round_aux.
  pose proof (shr_fexp_nonneg m e l H) as H1.
  destruct (shr_fexp prec emax m e l) as [mrs' e']; simpl in H1.
  pose proof (round_nearest_even_nonneg _ (loc_of_shr_record mrs') H1) as H2.
  pose proof (shr_fexp_nonneg _ e' loc_Exact H2) as H3.
  destruct (shr_fexp prec emax _ e' loc_Exact) as [mrs'' e'']; simpl in H3.
  destruct (shr_m mrs'') as [|q|q]; simpl.
  - apply eqb_reflx.
  - destruct (e'' <=? emax - prec); simpl; apply eqb_reflx.
  - lia.
Qed.

Lemma binary_round_signed s m e :
  signed_as s (binary_round prec emax s m e) = true.
Proof.
  unfold binary_round.
  destruct (shl_align m e _) as [mz ez].
  apply binary_round_aux_signed; lia.
Qed.

(** The magnitude of a rounded value does not depend on its sign. *)
Lemma binary_round_aux_abs s s' m e l :
  SFabs (binary_round_aux prec emax s m e l) =
  SFabs (binary_round_aux prec emax s' m e l).
Proof.
  unfold binary_round_aux.
  destruct (shr_fexp prec emax m e l) as [mrs' e'].
  destruct (shr_fexp prec emax _ e' loc_Exact) as [mrs'' e''].
  destruct (shr_m mrs''); try reflexivity.
  destruct (e'' <=? emax - prec); reflexivity.
Qed.

Lemma binary_round_abs s s' m e :
  SFabs (binary_round prec emax s m e) = SFabs (binary_round prec emax s' m e).
Proof.
  unfold binary_round.
  destruct (shl_align m e _) as [mz ez]; apply binary_round_aux_abs.
Qed.

Lemma binary_normalize_opp_abs m e sz sz' :
  SFabs (binary_normalize prec emax (- m) e sz) =
  SFabs (binary_normalize prec emax m e sz').
Proof.
  destruct m; simpl; auto using binary_round_abs.
Qed.

Lemma binary_normalize_not_nan m e sz :
  is_nan (binary_normalize prec emax m e sz) = false.
Proof.
  destruct m as [|p|p]; simpl; trivial.
  - pose proof (binary_round_signed false p e) as H.
    destruct (binary_round prec emax false p e); trivial; discriminate.
  - pose proof (binary_round_signed true p e) as H.
    destruct (binary_round prec emax true p e); trivial; discriminate.
Qed.

Lemma signed_as_not_nan s x : signed_as s x = true -> is_nan x = false.
Proof. destruct x; trivial; discriminate. Qed.

(** *** Facts about the four operations the metric uses *)

Lemma sub_finite_not_nan x y :
  is_finite x = true -> is_finite y = true -> is_nan (sub x y) = false.
Proof.
  destruct x as [sx|sx| |sx mx ex], y as [sy|sy| |sy my ey];
    try discriminate; intros _ _; simpl; trivial.
  - destruct sx, sy; reflexivity.
  - apply binary_normalize_not_nan.
Qed.

Lemma mul_self_signed x : is_nan x = false -> signed_as false (mul x x) = true.
Proof.
  destruct x as [s|s| |s m e]; try discriminate; intros _; simpl.
  - now destruct s.
  - now destruct s.
  - replace (xorb s s) with false by now destruct s.
    apply binary_round_aux_signed; lia.
Qed.

Lemma add_signed x y :
  signed_as false x = true -> signed_as false y = true ->
  signed_as false (add x y) = true.
Proof.
  destruct x as [[]|[]| |[] mx ex], y as [[]|[]| |[] my ey];
    try discriminate; intros _ _; trivial.
  unfold add, SFadd, cond_Zopp.
  apply (binary_round_signed false).
Qed.

Lemma sqrt_signed x : signed_as false x = true -> signed_as false (sqrt x) = true.
Proof.
  destruct x as [[]|[]| |[] m e]; try discriminate; intros _; trivial.
  unfold sqrt, SFsqrt, SFsqrt_core_binary.
  set (m' := match _ - _ with Z0 => _ | Zpos _ => _ | Zneg _ => _ end).
  pose proof (Z.sqrtrem_sqrt m') as Hq.
  destruct (Z.sqrtrem m') as [q r]; simpl in Hq.
  apply binary_round_aux_signed.
  subst q; apply Z.sqrt_nonneg.
Qed.

Lemma sub_swap_abs x y : SFabs (sub x y) = SFabs (sub y x).
Proof.
  destruct x as [sx|sx| |sx mx ex], y as [sy|sy| |sy my ey]; simpl; trivial;
    try (now destruct sx, sy).
  rewrite (Z.min_comm ey ex).
  rewrite <- (binary_normalize_opp_abs _ _ false false).
  f_equal; f_equal; lia.
Qed.

Lemma mul_self_abs x : mul x x = mul (SFabs x) (SFabs x).
Proof. destruct x as [s|s| |s m e]; simpl; trivial; now destruct s. Qed.

Lemma mul_abs_eq x y : SFabs x = SFabs y -> mul x x = mul y y.
Proof.
  intros H; rewrite (mul_self_abs x), (mul_self_abs y); now rewrite H.
Qed.

Lemma sub_diag x : is_finite x = true -> sub x x = zero.
Proof.
  destruct x as [[]|s| |s m e]; try discriminate; intros _; trivial.
  unfold sub, SFsub; now rewrite Z.sub_diag.
Qed.

(** *** Facts about the comparisons *)

Lemma SFcompare_antisym x y :
  SFcompare y x = option_map CompOpp (SFcompare x y).
Proof.
  destruct x as [[]|[]| |[] mx ex], y as [[]|[]| |[] my ey]; simpl; trivial;
    rewrite (Z.compare_antisym ex ey);
    destruct (ex ?= ey); simpl; trivial;
    now rewrite (Pos.compare_cont_antisym mx my Eq).
Qed.

Lemma leb_not_nan_l x y : leb x y = true -> is_nan x = false.
Proof. now destruct x. Qed.

Lemma leb_not_nan_r x y : leb x y = true -> is_nan y = false.
Proof. now destruct x, y. Qed.

(** On numbers, [x <= y] fails exactly when [y < x]. *)
Lemma leb_false_ltb x y :
  is_nan x = false -> is_nan y = false -> leb x y = negb (ltb y x).
Proof.
  intros Hx Hy; unfold leb, ltb, SFleb, SFltb.
  rewrite (SFcompare_antisym x y).
  destruct (SFcompare x y) as [[]|] eqn:E; trivial.
  destruct x, y; discriminate.
Qed.

(** A value above a non-negative bound is a number and is not below zero. *)
Lemma leb_above_nonneg l x :
  leb zero l = true -> leb l x = true -> is_nan x = false /\ ltb x zero = false.
Proof.
  destruct l as [[]|[]| |[] ml el], x as [[]|[]| |[] mx ex];
    simpl; try discriminate; auto.
Qed.

Lemma signed_false_not_neg x :
  signed_as false x = true -> ltb x zero = false.
Proof. destruct x as [[]|[]| |[] m e]; try discriminate; trivial. Qed.

Lemma signed_false_leb_zero x : signed_as false x = true -> leb zero x = true.
Proof. destruct x as [[]|[]| |[] m e]; try discriminate; trivial. Qed.

Lemma leb_infinity x : is_nan x = false -> leb x infinity = true.
Proof. destruct x as [[]|[]| |[] m e]; try discriminate; trivial. Qed.

Local Close Scope Z_scope.

End DoubleFacts.

Import DoubleFacts.

(** *** Sanity checks of the arithmetic against known binary64 results *)

Example constants_representable :
  forallb representable [zero; infinity; one; two; two_pow_600] = true.
Proof. reflexivity. Qed.

Example one_plus_one : add one one = two.
Proof. reflexivity. Qed.

(** sqrt(2) is 0x3FF6A09E667F3BCD. *)
Example sqrt_two : sqrt two = S754_finite false 6369051672525773 (-52).
Proof. vm_compute. reflexivity. Qed.

(** Samples (0,0) and (1,1) of the spec's first scenario are sqrt(2) apart. *)
Example scenario_distance :
  operator_call euclidean_distance_default [zero; zero] [one; one]
  = Some (S754_finite false 6369051672525773 (-52)).
Proof. vm_compute. reflexivity. Qed.

(** The exact distance against the computed one: 1.0 is exactly the distance
    of (0) and (1); the computed distance of (0,0) and (1,1) is the double
    nearest to sqrt(2), not the exact value, which lies just below it. *)
Example exact_distance_one : is_true_distance one [zero] [one] = true.
Proof. vm_compute. reflexivity. Qed.

Example exact_distance_sqrt_two :
  is_true_distance (euclidean_formula [zero; zero] [one; one])
    [zero; zero] [one; one] = false /\
  true_distance_at_most (euclidean_formula [zero; zero] [one; one])
    [zero; zero] [one; one] = true /\
  true_distance_at_least one [zero; zero] [one; one] = true.
Proof. vm_compute. repeat split. Qed.

(** With bounds (0, 1) the same pair is excluded. *)
Example scenario_excluded :
  operator_call (euclidean_distance_bounds zero one) [zero; zero] [one; one]
  = Some infinity.
Proof. vm_compute. reflexivity. Qed.

Example unequal_lengths :
  operator_call euclidean_distance_default [zero] [one; one] = None.
Proof. reflexivity. Qed.

Example scenario_staging :
  option_map samples_train (stage (locals_init scenario_matrix (fun _ => S754_nan)))
  = Some [[zero; zero]; [one; one]; [two; two]].
Proof. reflexivity. Qed.


(** ** Properties of the metric *)

Lemma matrix_subtract_total (a : sample_typ) :
  forall b, length a = length b ->
    exists d, matrix_subtract a b = Some d /\ length d = length a.
Proof.
  induction a as [|x a IH]; intros [|y b] H; try discriminate.
  - now exists [].
  - injection H as H. destruct (IH b H) as (d & Hd & Hl).
    exists (sub x y :: d); simpl; rewrite Hd, Hl; auto.
Qed.

Lemma matrix_subtract_same_length (a : sample_typ) :
  forall b d, matrix_subtract a b = Some d -> length a = length b.
Proof.
  induction a as [|x a IH]; intros [|y b] d; simpl; try discriminate; trivial.
  destruct (matrix_subtract a b) as [d'|] eqn:E; try discriminate.
  intros _; f_equal; eauto.
Qed.

Lemma matrix_subtract_not_nan (a : sample_typ) :
  forall b d, all_finite a = true -> all_finite b = true ->
    matrix_subtract a b = Some d ->
    forallb (fun x => negb (is_nan x)) d = true.
Proof.
  induction a as [|x a IH]; intros [|y b] d; simpl; try discriminate.
  - intros _ _ [= <-]; reflexivity.
  - intros [Hx Ha]%andb_prop [Hy Hb]%andb_prop.
    destruct (matrix_subtract a b) as [d'|] eqn:E; try discriminate.
    intros [= <-]; simpl.
    rewrite (sub_finite_not_nan x y Hx Hy); simpl; eauto.
Qed.

Lemma sum_from_signed (d : sample_typ) :
  forall acc, signed_as false acc = true ->
    forallb (signed_as false) d = true ->
    signed_as false (fold_left add d acc) = true.
Proof.
  induction d as [|x d IH]; simpl; intros acc Hacc H; trivial.
  apply andb_prop in H as [Hx Hd].
  apply IH; auto using add_signed.
Qed.

Lemma squared_signed (d : sample_typ) :
  forallb (fun x => negb (is_nan x)) d = true ->
  forallb (signed_as false) (squared d) = true.
Proof.
  induction d as [|x d IH]; simpl; trivial.
  intros [Hx Hd]%andb_prop.
  rewrite mul_self_signed, IH; trivial.
  now destruct (is_nan x).
Qed.

(** On finite vectors of one length, [len] is a number with a clear sign bit:
    +0, a positive finite value, or +infinity after an overflow. *)
Lemma len_finite_signed (a b : sample_typ) :
  length a = length b -> all_finite a = true -> all_finite b = true ->
  exists d, len a b = Some d /\ signed_as false d = true.
Proof.
  intros Hl Ha Hb. unfold len.
  destruct (matrix_subtract_total a b Hl) as (v & Hv & _).
  rewrite Hv. eexists; split; [reflexivity|].
  apply sqrt_signed, sum_from_signed; [reflexivity|].
  apply squared_signed, (matrix_subtract_not_nan a b v Ha Hb Hv).
Qed.

Lemma squared_swap (a : sample_typ) :
  forall b d, matrix_subtract a b = Some d ->
    exists d', matrix_subtract b a = Some d' /\ squared d' = squared d.
Proof.
  induction a as [|x a IH]; intros [|y b] d; simpl; try discriminate.
  - intros [= <-]; now exists [].
  - destruct (matrix_subtract a b) as [v|] eqn:E; try discriminate.
    intros [= <-]. destruct (IH b v E) as (v' & -> & Hsq).
    exists (sub y x :: v'); split; trivial; simpl.
    rewrite Hsq; f_equal. apply mul_abs_eq, sub_swap_abs.
Qed.

Lemma len_sym (a b : sample_typ) : len a b = len b a.
Proof.
  unfold len, length_squared.
  destruct (matrix_subtract a b) as [d|] eqn:E.
  - destruct (squared_swap a b d E) as (d' & -> & ->); reflexivity.
  - destruct (matrix_subtract b a) as [d'|] eqn:E'; trivial.
    destruct (squared_swap b a d' E') as (d & Hd & _); congruence.
Qed.

Lemma sum_zeros (n : nat) : fold_left add (repeat zero n) zero = zero.
Proof. induction n as [|n IH]; simpl; trivial. Qed.

Lemma matrix_subtract_diag (a : sample_typ) :
  all_finite a = true -> matrix_subtract a a = Some (repeat zero (length a)).
Proof.
  induction a as [|x a IH]; simpl; trivial.
  intros [Hx Ha]%andb_prop. now rewrite (IH Ha), (sub_diag x Hx).
Qed.

Lemma sum_squared_differences_fold (a : sample_typ) :
  forall b d acc, matrix_subtract a b = Some d ->
    fold_left add (squared d) acc = sum_squared_differences acc a b.
Proof.
  induction a as [|x a IH]; intros [|y b] d acc; simpl; try discriminate.
  - now intros [= <-].
  - destruct (matrix_subtract a b) as [v|] eqn:E; try discriminate.
    intros [= <-]; simpl. now apply IH.
Qed.

(** What [operator()] computes is the spec's formula. *)
Lemma len_formula (a b : sample_typ) :
  length a = length b -> len a b = Some (euclidean_formula a b).
Proof.
  intros Hl. unfold len, euclidean_formula, length_squared, sum.
  destruct (matrix_subtract_total a b Hl) as (d & Hd & _).
  now rewrite Hd, (sum_squared_differences_fold a b d zero Hd).
Qed.

Lemma len_nil : len [] [] = Some zero.
Proof. reflexivity. Qed.

Lemma len_diag (a : sample_typ) : all_finite a = true -> len a a = Some zero.
Proof.
  intros Ha; unfold len, length_squared, sum, squared.
  rewrite (matrix_subtract_diag a Ha); do 2 f_equal.
  induction (length a) as [|n IH]; simpl; trivial.
Qed.

(** Whatever the bounds and the vectors, the metric returns a number. *)
Lemma operator_call_not_nan (f : euclidean_distance) (a b : sample_typ) r :
  operator_call f a b = Some r -> is_nan r = false.
Proof.
  unfold operator_call. destruct (len a b) as [d|]; try discriminate.
  destruct (leb (lower f) d) eqn:E; simpl.
  - destruct (leb d (upper f)); intros [= <-]; trivial.
    now apply leb_not_nan_r in E.
  - now intros [= <-].
Qed.

(** With the default bounds every signed number passes both comparisons. *)
Lemma operator_call_default (a b : sample_typ) (d : double) :
  len a b = Some d -> signed_as false d = true ->
  operator_call euclidean_distance_default a b = Some d.
Proof.
  intros Hd Hs. unfold operator_call; rewrite Hd; simpl.
  rewrite (signed_false_leb_zero d Hs).
  now rewrite (leb_infinity d (signed_as_not_nan _ _ Hs)).
Qed.

(** With a lower bound that is not below zero, neither is the result. *)
Lemma operator_call_not_negative (f : euclidean_distance) (a b : sample_typ) r :
  leb zero (lower f) = true ->
  operator_call f a b = Some r -> ltb r zero = false.
Proof.
  intros H0. unfold operator_call. destruct (len a b) as [d|]; try discriminate.
  destruct (leb (lower f) d) eqn:E; simpl.
  - destruct (leb d (upper f)); intros [= <-]; trivial.
    now destruct (leb_above_nonneg _ _ H0 E).
  - now intros [= <-].
Qed.

Lemma operator_call_total (f : euclidean_distance) (a b : sample_typ) :
  length a = length b -> exists r, operator_call f a b = Some r.
Proof.
  intros Hl. unfold operator_call, len.
  destruct (matrix_subtract_total a b Hl) as (d & -> & _).
  destruct (_ && _); eauto.
Qed.

Lemma operator_call_sym (f : euclidean_distance) (a b : sample_typ) :
  operator_call f a b = operator_call f b a.
Proof. unfold operator_call; now rewrite (len_sym a b). Qed.

(** C1, as the code has it.  For equal-length finite vectors and bounds with
    0 <= lower <= upper, let [d] be the Euclidean distance
    sqrt(sum_j (a[j]-b[j])^2) as computed in double arithmetic, which need
    not be the exact distance.  The metric returns [d] when
    lower <= d <= upper and exactly +infinity when [d] lies outside
    (d < lower or upper < d); one of the two always applies, and the result
    is never a NaN and never below zero. *)
Theorem metric_bounded_distance (f : euclidean_distance) (a b : sample_typ) :
  length a = length b ->
  all_finite a = true -> all_finite b = true ->
  leb zero (lower f) = true -> leb (lower f) (upper f) = true ->
  exists d r,
    d = euclidean_formula a b /\ operator_call f a b = Some r /\
    (leb (lower f) d && leb d (upper f) = true -> r = d) /\
    (ltb d (lower f) || ltb (upper f) d = true -> r = infinity) /\
    leb (lower f) d && leb d (upper f)
      = negb (ltb d (lower f) || ltb (upper f) d) /\
    is_nan r = false /\ ltb r zero = false.
Proof.
  intros Hl Ha Hb H0 Hlu.
  destruct (len_finite_signed a b Hl Ha Hb) as (d & Hd & Hs).
  assert (Hf : d = euclidean_formula a b).
  { rewrite (len_formula a b Hl) in Hd. now injection Hd. }
  pose proof (signed_as_not_nan _ _ Hs) as Hn.
  pose proof (leb_not_nan_l _ _ Hlu) as Hnl.
  pose proof (leb_not_nan_r _ _ Hlu) as Hnu.
  assert (Hio : leb (lower f) d && leb d (upper f)
                = negb (ltb d (lower f) || ltb (upper f) d)).
  { rewrite (leb_false_ltb _ _ Hnl Hn), (leb_false_ltb _ _ Hn Hnu).
    now rewrite negb_orb. }
  unfold operator_call; rewrite Hd.
  destruct (leb (lower f) d && leb d (upper f)) eqn:E.
  - exists d, d. rewrite E. do 3 (split; [trivial|]).
    split; [intros Ho; rewrite Ho in Hio; discriminate|].
    split; [exact Hio|].
    split; [exact Hn|now apply signed_false_not_neg].
  - exists d, infinity. rewrite E. do 2 (split; [trivial|]).
    split; [discriminate|]. now repeat split.
Qed.

Lemma metric_bounded_distance_witness :
  (exists d r,
     d = euclidean_formula [zero; zero] [one; one] /\
     operator_call (euclidean_distance_bounds zero one) [zero; zero] [one; one]
       = Some r /\
     (leb zero d && leb d one = true -> r = d) /\
     (ltb d zero || ltb one d = true -> r = infinity) /\
     leb zero d && leb d one = negb (ltb d zero || ltb one d) /\
     is_nan r = false /\ ltb r zero = false) /\
  euclidean_formula [zero; zero] [one; one]
  = S754_finite false 6369051672525773 (-52).
Proof.
  split.
  - apply (metric_bounded_distance (euclidean_distance_bounds zero one)
             [zero; zero] [one; one]); reflexivity.
  - vm_compute. reflexivity.
Defined.

(** C1 as stated fails, in both directions.  The exact distance of [2^600]
    and [0] is 2^600, inside the bounds (0, 2^601), but the square overflows
    and the metric returns +infinity.  The exact distance of [2^-600] and [0]
    is 2^-600, above the upper bound of (0, 2^-601), but the square
    underflows to 0 and the metric returns 0. *)
Lemma true_distance_not_returned :
  (forallb representable [two_pow_600; two_pow_601; zero] = true /\
   all_finite [two_pow_600] = true /\ all_finite [zero] = true /\
   leb zero zero = true /\ leb zero two_pow_601 = true /\
   is_true_distance two_pow_600 [two_pow_600] [zero] = true /\
   true_distance_at_least zero [two_pow_600] [zero] = true /\
   true_distance_at_most two_pow_601 [two_pow_600] [zero] = true /\
   operator_call (euclidean_distance_bounds zero two_pow_601)
     [two_pow_600] [zero] = Some infinity) /\
  (forallb representable [two_pow_m600; two_pow_m601] = true /\
   all_finite [two_pow_m600] = true /\
   leb zero two_pow_m601 = true /\
   is_true_distance two_pow_m600 [two_pow_m600] [zero] = true /\
   true_distance_above two_pow_m601 [two_pow_m600] [zero] = true /\
   operator_call (euclidean_distance_bounds zero two_pow_m601)
     [two_pow_m600] [zero] = Some zero).
Proof. vm_compute. repeat split. Qed.

(** C3, as the code has it.  With the default bounds (0, +infinity) and
    equal-length finite vectors, the metric returns the unconstrained
    Euclidean distance sqrt(sum_j (a[j]-b[j])^2), in double arithmetic; the
    excluding branch is never taken, and the value is a number that is not
    below zero.  (It is +infinity when the computation itself overflows.) *)
Theorem default_bounds_plain_distance (a b : sample_typ) :
  length a = length b ->
  all_finite a = true -> all_finite b = true ->
  exists d,
    d = euclidean_formula a b /\
    operator_call euclidean_distance_default a b = Some d /\
    is_nan d = false /\ ltb d zero = false.
Proof.
  intros Hl Ha Hb.
  destruct (len_finite_signed a b Hl Ha Hb) as (d & Hd & Hs).
  exists d. rewrite (operator_call_default a b d Hd Hs).
  rewrite (len_formula a b Hl) in Hd.
  repeat split; eauto using signed_as_not_nan, signed_false_not_neg.
  now injection Hd.
Qed.

Lemma default_bounds_plain_distance_witness :
  exists d,
    d = euclidean_formula [zero; zero] [one; one] /\
    operator_call euclidean_distance_default [zero; zero] [one; one] = Some d /\
    is_nan d = false /\ ltb d zero = false.
Proof.
  apply (default_bounds_plain_distance [zero; zero] [one; one]); reflexivity.
Defined.

(** C3 as stated fails: 2^600 and 0 are finite doubles, the square of their
    difference overflows, and the metric with default bounds returns
    +infinity. *)
Lemma default_bounds_overflow :
  forallb representable [two_pow_600; zero] = true /\
  all_finite [two_pow_600] = true /\ all_finite [zero] = true /\
  length_squared [sub two_pow_600 zero] = infinity /\
  euclidean_formula [two_pow_600] [zero] = infinity /\
  operator_call euclidean_distance_default [two_pow_600] [zero] = Some infinity.
Proof. vm_compute. repeat split. Qed.

(** C4, as the code has it.  The metric is total on equal-length vectors of
    any length.  On two zero-length vectors it returns 0 when 0 lies within
    [lower, upper], and +infinity when the lower bound is above 0. *)
Theorem metric_total_and_empty (f : euclidean_distance) :
  (forall a b : sample_typ,
      length a = length b -> exists r, operator_call f a b = Some r) /\
  (leb (lower f) zero && leb zero (upper f) = true ->
   operator_call f [] [] = Some zero) /\
  (ltb zero (lower f) = true -> operator_call f [] [] = Some infinity).
Proof.
  split; [|split].
  - apply operator_call_total.
  - unfold operator_call; rewrite len_nil. now intros ->.
  - intros H. unfold operator_call; rewrite len_nil.
    destruct (lower f) as [[]|[]| |[] ml el]; try discriminate H; reflexivity.
Qed.

Lemma metric_total_and_empty_witness :
  (exists r, operator_call euclidean_distance_default [one] [two] = Some r) /\
  operator_call euclidean_distance_default [] [] = Some zero /\
  operator_call (euclidean_distance_bounds one two) [] [] = Some infinity.
Proof.
  split; [|split].
  - apply (proj1 (metric_total_and_empty euclidean_distance_default)).
    reflexivity.
  - apply (proj1 (proj2 (metric_total_and_empty euclidean_distance_default))).
    reflexivity.
  - apply (proj2 (proj2 (metric_total_and_empty
                           (euclidean_distance_bounds one two)))).
    reflexivity.
Defined.

(** C4 as stated fails: the bounds (1, 2) satisfy 0 <= lower <= upper, and
    the metric of two zero-length vectors is +infinity, not 0. *)
Lemma empty_vectors_excluded :
  leb zero one = true /\ leb one two = true /\
  len [] [] = Some zero /\
  operator_call (euclidean_distance_bounds one two) [] [] = Some infinity.
Proof. vm_compute. repeat split. Qed.

(** C6. The metric is symmetric: for bounds with lower <= upper and
    equal-length vectors, [metric(a, b)] and [metric(b, a)] are the same
    value. *)
Theorem metric_symmetric (f : euclidean_distance) (a b : sample_typ) :
  leb (lower f) (upper f) = true ->
  length a = length b ->
  exists r, operator_call f a b = Some r /\ operator_call f b a = Some r.
Proof.
  intros _ Hl.
  destruct (operator_call_total f a b Hl) as (r & Hr).
  exists r; split; trivial. now rewrite <- operator_call_sym.
Qed.

Lemma metric_symmetric_witness :
  exists r,
    operator_call (euclidean_distance_bounds zero infinity) [zero; one] [two; zero]
      = Some r /\
    operator_call (euclidean_distance_bounds zero infinity) [two; zero] [zero; one]
      = Some r.
Proof.
  apply (metric_symmetric (euclidean_distance_bounds zero infinity)
           [zero; one] [two; zero]); reflexivity.
Defined.

(** C7, as the code has it.  For every vector [a] of finite entries and all
    bounds with 0 within [lower, upper] (the default bounds among them),
    [metric(a, a)] is 0. *)
Theorem metric_identity (f : euclidean_distance) (a : sample_typ) :
  all_finite a = true ->
  leb (lower f) zero = true -> leb zero (upper f) = true ->
  operator_call f a a = Some zero.
Proof.
  intros Ha Hl Hu. unfold operator_call.
  now rewrite (len_diag a Ha), Hl, Hu.
Qed.

Lemma metric_identity_witness :
  operator_call euclidean_distance_default [one; two; two_pow_600]
    [one; two; two_pow_600] = Some zero.
Proof.
  apply (metric_identity euclidean_distance_default [one; two; two_pow_600]);
    reflexivity.
Defined.

(** C7 as stated fails: for the vector whose only entry is +infinity the
    difference [a - a] is a NaN, so is [len], both comparisons fail, and the
    metric with the default bounds returns +infinity, not 0. *)
Lemma identity_fails_on_infinity :
  leb (lower euclidean_distance_default) zero = true /\
  leb zero (upper euclidean_distance_default) = true /\
  len [infinity] [infinity] = Some S754_nan /\
  operator_call euclidean_distance_default [infinity] [infinity]
    = Some infinity.
Proof. vm_compute. repeat split. Qed.

(** ** Properties of the staging loop *)

Section Staging.

Variable M : mat.
Hypothesis M_wf : mat_wf M.

Lemma mat_at_in_range (j i : nat) :
  j < n_rows M -> i < n_cols M -> is_Some (mat_at M j i).
Proof.
  intros Hj Hi. unfold mat_at. apply lookup_lt_is_Some.
  rewrite M_wf. nia.
Qed.

(** The inner loop from row [t] on: rows [t ..] of [m] receive column [i],
    rows before [t] keep what they hold, nothing else changes. *)
Lemma assign_entries (i n : nat) :
  forall (t : nat) (st : locals),
    t + n = n_rows M -> i < n_cols M ->
    referenceData st = M -> length (m st) = n_rows M ->
    exists st',
      for_each (assign_entry i) (seq t n) st = Some st' /\
      referenceData st' = M /\
      samples_train st' = samples_train st /\
      length (m st') = n_rows M /\
      (forall j, t <= j < n_rows M -> m st' !! j = mat_at M j i) /\
      (forall j, j < t -> m st' !! j = m st !! j).
Proof.
  induction n as [|n IH]; intros t st Ht Hi HM Hlen; simpl.
  - exists st; repeat split; trivial. intros j Hj; lia.
  - destruct (mat_at_in_range t i) as [v Hv]; [lia|trivial|].
    unfold assign_entry at 1. rewrite HM, Hv.
    destruct (decide (t < length (m st))) as [Hlt|Hge]; [|lia].
    set (st1 := {| referenceData := M; m := <[t:=v]> (m st);
                   samples_train := samples_train st |}).
    destruct (IH (S t) st1) as (st' & Hrun & HM' & Hs' & Hlen' & Hnew & Hold);
      trivial; try lia.
    { unfold st1; simpl. now rewrite length_insert. }
    exists st'; repeat split; trivial.
    + intros j Hj. destruct (decide (j = t)) as [->|Hne].
      * rewrite Hold by lia. unfold st1; simpl. rewrite Hv.
        now apply list_lookup_insert_eq.
      * apply Hnew; lia.
    + intros j Hj. rewrite Hold by lia. unfold st1; simpl.
      apply list_lookup_insert_ne; lia.
Qed.

Lemma copy_column_spec (i : nat) (st : locals) :
  i < n_cols M -> referenceData st = M -> length (m st) = n_rows M ->
  exists st',
    copy_column i st = Some st' /\
    referenceData st' = M /\
    samples_train st' = samples_train st /\
    length (m st') = n_rows M /\
    (forall j, j < n_rows M -> m st' !! j = mat_at M j i).
Proof.
  intros Hi HM Hlen. unfold copy_column. rewrite HM.
  destruct (assign_entries i (n_rows M) 0 st)
    as (st' & Hrun & HM' & Hs' & Hlen' & Hnew & _); trivial.
  exists st'; repeat split; trivial. intros j Hj; apply Hnew; lia.
Qed.

(** The outer loop from column [t] on appends one sample per column. *)
Lemma stage_columns (n : nat) :
  forall (t : nat) (st : locals),
    t + n = n_cols M ->
    referenceData st = M -> length (m st) = n_rows M ->
    exists st' new,
      for_each stage_column (seq t n) st = Some st' /\
      referenceData st' = M /\
      samples_train st' = samples_train st ++ new /\
      length new = n /\
      (forall c, c < n ->
         exists s, new !! c = Some s /\ length s = n_rows M /\
           forall j, j < n_rows M -> s !! j = mat_at M j (t + c)).
Proof.
  induction n as [|n IH]; intros t st Ht HM Hlen; simpl.
  - exists st, []; repeat split; trivial.
    + now rewrite app_nil_r.
    + intros c Hc; lia.
  - destruct (copy_column_spec t st) as (st1 & Hrun & HM1 & Hs1 & Hlen1 & Hcol);
      trivial; try lia.
    unfold stage_column at 1. rewrite Hrun.
    destruct (IH (S t) (push_back st1)) as (st' & new & Hrun' & HM' & Hs' & Hn & Hnew);
      trivial; try lia.
    exists st', (m st1 :: new); repeat split; trivial.
    + rewrite Hs'. simpl. rewrite Hs1. now rewrite <- app_assoc.
    + simpl; now rewrite Hn.
    + intros [|c] Hc.
      * exists (m st1); repeat split; trivial.
        intros j Hj. rewrite Nat.add_0_r. now apply Hcol.
      * destruct (Hnew c) as (s & Hs & Hls & Hsj); [lia|].
        exists s; repeat split; trivial.
        intros j Hj. rewrite Hsj by trivial. f_equal; lia.
Qed.

Lemma length_set_size (n : nat) (junk : nat -> double) :
  length (set_size n junk) = n.
Proof. unfold set_size. now rewrite length_map, length_seq. Qed.

Lemma stage_spec (junk : nat -> double) :
  exists st',
    stage (locals_init M junk) = Some st' /\
    referenceData st' = M /\
    length (samples_train st') = n_cols M /\
    (forall i, i < n_cols M ->
       exists s, samples_train st' !! i = Some s /\ length s = n_rows M /\
         forall j, j < n_rows M -> s !! j = mat_at M j i).
Proof.
  unfold stage; simpl.
  destruct (stage_columns (n_cols M) 0 (locals_init M junk))
    as (st' & new & Hrun & HM' & Hs' & Hn & Hnew); trivial.
  { apply length_set_size. }
  simpl in Hs'. exists st'; repeat split; trivial; rewrite Hs'; trivial.
Qed.

End Staging.

Lemma for_each_preserves {S A : Type} (field : S -> A)
  (body : nat -> S -> option S) :
  (forall i st st', body i st = Some st' -> field st' = field st) ->
  forall idx st st', for_each body idx st = Some st' -> field st' = field st.
Proof.
  intros Hbody idx; induction idx as [|i idx IH]; simpl; intros st st'.
  - now intros [= <-].
  - destruct (body i st) as [st1|] eqn:E; try discriminate.
    intros H. rewrite (IH _ _ H). eauto.
Qed.

Lemma assign_entry_matrix (i j : nat) (st st' : locals) :
  assign_entry i j st = Some st' -> referenceData st' = referenceData st.
Proof.
  unfold assign_entry. destruct (mat_at _ j i); try discriminate.
  destruct (decide _); try discriminate. now intros [= <-].
Qed.

Lemma stage_column_matrix (i : nat) (st st' : locals) :
  stage_column i st = Some st' -> referenceData st' = referenceData st.
Proof.
  unfold stage_column, copy_column.
  destruct (for_each _ _ st) as [st1|] eqn:E; try discriminate.
  intros [= <-]; simpl.
  apply (for_each_preserves referenceData (assign_entry i)
           (assign_entry_matrix i) _ _ _ E).
Qed.

(** Staging never writes the matrix, whatever the matrix is. *)
Lemma stage_matrix (st st' : locals) :
  stage st = Some st' -> referenceData st' = referenceData st.
Proof.
  apply (for_each_preserves referenceData stage_column stage_column_matrix).
Qed.

(** C2. For every loaded matrix with R rows and C columns, staging succeeds
    and produces exactly C samples, each of length R, in column order:
    element [j] of sample [i] is the matrix entry at row [j], column [i]. *)
Theorem staging_produces_columns (M : mat) (junk : nat -> double) :
  mat_wf M ->
  exists st',
    stage (locals_init M junk) = Some st' /\
    length (samples_train st') = n_cols M /\
    forall i, i < n_cols M ->
      exists s, samples_train st' !! i = Some s /\ length s = n_rows M /\
        forall j, j < n_rows M ->
          exists v, s !! j = Some v /\ mat_at M j i = Some v.
Proof.
  intros Hwf.
  destruct (stage_spec M Hwf junk) as (st' & Hrun & _ & Hlen & Hcols).
  exists st'; repeat split; trivial.
  intros i Hi. destruct (Hcols i Hi) as (s & Hs & Hls & Hsj).
  exists s; repeat split; trivial.
  intros j Hj. destruct (mat_at_in_range M Hwf j i Hj Hi) as [v Hv].
  exists v; split; trivial. now rewrite Hsj.
Qed.

Lemma staging_produces_columns_witness :
  exists st',
    stage (locals_init scenario_matrix (fun _ => S754_nan)) = Some st' /\
    length (samples_train st') = n_cols scenario_matrix /\
    forall i, i < n_cols scenario_matrix ->
      exists s, samples_train st' !! i = Some s /\
        length s = n_rows scenario_matrix /\
        forall j, j < n_rows scenario_matrix ->
          exists v, s !! j = Some v /\ mat_at scenario_matrix j i = Some v.
Proof.
  apply (staging_produces_columns scenario_matrix (fun _ => S754_nan)).
  reflexivity.
Defined.

(** C8. Staging has no effect on its input: for every loaded matrix, after
    staging completes the matrix held in [referenceData] is the one that was
    loaded, with the same dimensions and the same entry at every position. *)
Theorem staging_leaves_matrix (M : mat) (junk : nat -> double) :
  mat_wf M ->
  exists st',
    stage (locals_init M junk) = Some st' /\
    referenceData st' = M /\
    n_rows (referenceData st') = n_rows M /\
    n_cols (referenceData st') = n_cols M /\
    forall j i, mat_at (referenceData st') j i = mat_at M j i.
Proof.
  intros Hwf.
  destruct (stage_spec M Hwf junk) as (st' & Hrun & _).
  pose proof (stage_matrix _ _ Hrun) as HM; simpl in HM.
  exists st'; rewrite HM; repeat split; trivial.
Qed.

Lemma staging_leaves_matrix_witness :
  exists st',
    stage (locals_init scenario_matrix (fun _ => zero)) = Some st' /\
    referenceData st' = scenario_matrix /\
    n_rows (referenceData st') = n_rows scenario_matrix /\
    n_cols (referenceData st') = n_cols scenario_matrix /\
    forall j i, mat_at (referenceData st') j i = mat_at scenario_matrix j i.
Proof.
  apply (staging_leaves_matrix scenario_matrix (fun _ => zero)).
  reflexivity.
Defined.

(** ** Properties of the query driver *)

Section DriverFacts.

Variable Load : string -> outcome mat.
Variable find_k_nearest_neighbors :
  list sample_typ -> euclidean_distance -> Z -> outcome (list sample_pair).
Variable junk : nat -> double.

(** What a run does once the matrix is loaded and staged. *)
Lemma mlpackMain_after_staging (args : cli) (M : mat) (st : locals) :
  Load (reference_file args) = Returned M ->
  stage (locals_init M junk) = Some st ->
  mlpackMain Load find_k_nearest_neighbors junk args [] =
  let k := size_t_of_int (k_param args) in
  let before :=
    [Log_Info (reference_file args) (n_rows M) (n_cols M);
     Timer_Start "Nearest_Neighbors";
     Search_call (samples_train st) euclidean_distance_default k] in
  match find_k_nearest_neighbors (samples_train st)
          euclidean_distance_default k with
  | Returned out => (Returned out, before ++ [Timer_Stop "Nearest_Neighbors"])
  | Thrown e => (Thrown e, before)
  end.
Proof.
  intros HL Hst. unfold mlpackMain, bind, call, emit, checked, ret.
  rewrite HL, Hst. simpl.
  now destruct (find_k_nearest_neighbors _ _ _).
Qed.

Lemma mlpackMain_load_failure (args : cli) (e : string) :
  Load (reference_file args) = Thrown e ->
  mlpackMain Load find_k_nearest_neighbors junk args [] = (Thrown e, []).
Proof.
  intros HL. unfold mlpackMain, bind, call. now rewrite HL.
Qed.

Lemma mlpackMain_staging_failure (args : cli) (M : mat) :
  Load (reference_file args) = Returned M ->
  stage (locals_init M junk) = None ->
  mlpackMain Load find_k_nearest_neighbors junk args [] =
  (Thrown "index out of bounds",
   [Log_Info (reference_file args) (n_rows M) (n_cols M)]).
Proof.
  intros HL Hst. unfold mlpackMain, bind, call, emit, checked.
  now rewrite HL, Hst.
Qed.

End DriverFacts.

Lemma size_t_of_negative_int (n : Z) :
  (int_min <= n < 0)%Z ->
  size_t_of_int n = (n + 2 ^ 64)%Z /\
  (2 ^ 63 <= size_t_of_int n < 2 ^ 64)%Z.
Proof.
  unfold int_min, size_t_of_int; intros Hn.
  rewrite <- (Z_mod_plus_full n 1 (2 ^ 64)), Z.mul_1_l.
  rewrite Z.mod_small; lia.
Qed.

(** C5, as the code has it.  Once the matrix is loaded, the
    "Nearest_Neighbors" timer is started before the external search is
    called.  When the search returns, the timer is stopped after it.  When
    the search fails, the failure leaves the driver with the timer started
    and no stop executed. *)
Theorem timer_brackets_search
  (Load : string -> outcome mat)
  (search : list sample_typ -> euclidean_distance -> Z ->
            outcome (list sample_pair))
  (junk : nat -> double) (args : cli) (M : mat) :
  Load (reference_file args) = Returned M -> mat_wf M ->
  exists log samples k,
    let before :=
      [log; Timer_Start "Nearest_Neighbors";
       Search_call samples euclidean_distance_default k] in
    (forall out, search samples euclidean_distance_default k = Returned out ->
       mlpackMain Load search junk args [] =
       (Returned out, before ++ [Timer_Stop "Nearest_Neighbors"])) /\
    (forall e, search samples euclidean_distance_default k = Thrown e ->
       mlpackMain Load search junk args [] = (Thrown e, before)).
Proof.
  intros HL Hwf.
  destruct (stage_spec M Hwf junk) as (st & Hst & _).
  exists (Log_Info (reference_file args) (n_rows M) (n_cols M)),
    (samples_train st), (size_t_of_int (k_param args)).
  rewrite (mlpackMain_after_staging Load search junk args M st HL Hst).
  simpl; split; intros r ->; reflexivity.
Qed.

Lemma timer_brackets_search_witness :
  exists log samples k,
    let before :=
      [log; Timer_Start "Nearest_Neighbors";
       Search_call samples euclidean_distance_default k] in
    (forall out, empty_search samples euclidean_distance_default k = Returned out ->
       mlpackMain load_scenario empty_search (fun _ => zero) scenario_args [] =
       (Returned out, before ++ [Timer_Stop "Nearest_Neighbors"])) /\
    (forall e, empty_search samples euclidean_distance_default k = Thrown e ->
       mlpackMain load_scenario empty_search (fun _ => zero) scenario_args [] =
       (Thrown e, before)).
Proof.
  apply (timer_brackets_search load_scenario empty_search (fun _ => zero)
           scenario_args scenario_matrix); reflexivity.
Defined.

(** C5 as stated fails: when the search throws, the run ends with that
    exception and its trace holds the timer's start and the search call but
    no stop. *)
Lemma timer_left_running_on_failure :
  mlpackMain load_scenario failing_search (fun _ => zero) scenario_args [] =
  (Thrown "search failed",
   [Log_Info "data.csv" 2 3;
    Timer_Start "Nearest_Neighbors";
    Search_call [[zero; zero]; [one; one]; [two; two]]
      euclidean_distance_default 1]).
Proof. reflexivity. Qed.



(** C10. A negative [k] on the command line is not rejected: once the matrix
    is loaded, the search is called with the count [k mod 2^64 = k + 2^64],
    which is at least 2^63, and whatever the search does is the outcome of
    the run. *)
Theorem negative_k_reaches_search
  (Load : string -> outcome mat)
  (search : list sample_typ -> euclidean_distance -> Z ->
            outcome (list sample_pair))
  (junk : nat -> double) (args : cli) (M : mat) :
  Load (reference_file args) = Returned M -> mat_wf M ->
  (int_min <= k_param args < 0)%Z ->
  exists samples,
    let k := (k_param args + 2 ^ 64)%Z in
    size_t_of_int (k_param args) = k /\
    (2 ^ 63 <= k < 2 ^ 64)%Z /\
    In (Search_call samples euclidean_distance_default k)
       (snd (mlpackMain Load search junk args [])) /\
    fst (mlpackMain Load search junk args []) =
    search samples euclidean_distance_default k.
Proof.
  intros HL Hwf Hk.
  destruct (stage_spec M Hwf junk) as (st & Hst & _).
  destruct (size_t_of_negative_int _ Hk) as [Heq Hrange].
  exists (samples_train st); cbv zeta.
  rewrite (mlpackMain_after_staging Load search junk args M st HL Hst).
  cbv zeta. rewrite <- Heq.
  split; [reflexivity|]. split; [exact Hrange|].
  destruct (search _ _ _); simpl; auto.
Qed.

Lemma negative_k_reaches_search_witness :
  exists samples,
    let k := (k_param negative_args + 2 ^ 64)%Z in
    size_t_of_int (k_param negative_args) = k /\
    (2 ^ 63 <= k < 2 ^ 64)%Z /\
    In (Search_call samples euclidean_distance_default k)
       (snd (mlpackMain load_scenario empty_search (fun _ => zero)
               negative_args [])) /\
    fst (mlpackMain load_scenario empty_search (fun _ => zero)
           negative_args []) =
    empty_search samples euclidean_distance_default k.
Proof.
  apply (negative_k_reaches_search load_scenario empty_search (fun _ => zero)
           negative_args scenario_matrix).
  - reflexivity.
  - reflexivity.
  - unfold int_min; simpl; lia.
Defined.

(** The count the search receives for [k = -1] is 2^64 - 1. *)
Example minus_one_as_size_t :
  mlpackMain load_scenario empty_search (fun _ => zero) negative_args [] =
  (Returned [],
   [Log_Info "data.csv" 2 3;
    Timer_Start "Nearest_Neighbors";
    Search_call [[zero; zero]; [one; one]; [two; two]]
      euclidean_distance_default 18446744073709551615;
    Timer_Stop "Nearest_Neighbors"]).
Proof. reflexivity. Qed.

(** * Further properties of the code *)

(** ** More facts about binary64 comparisons and operations *)

Lemma compare_cont_Eq (p q : positive) :
  Pos.compare_cont Eq p q = (p ?= q)%positive.
Proof. reflexivity. Qed.

(** [<=] on doubles is transitive. *)
Lemma leb_trans (x y z : double) :
  leb x y = true -> leb y z = true -> leb x z = true.
Proof.
  unfold leb, SFleb.
  destruct x as [[]|[]| |[] mx ex], y as [[]|[]| |[] my ey],
    z as [[]|[]| |[] mz ez]; simpl; intros H1 H2;
    try discriminate; try reflexivity;
    rewrite compare_cont_Eq in *;
    destruct (Z.compare_spec ex ey), (Z.compare_spec ey ez),
      (Z.compare_spec ex ez); try lia; try discriminate; try reflexivity;
    destruct (Pos.compare_spec mx my), (Pos.compare_spec my mz),
      (Pos.compare_spec mx mz); try lia; try discriminate; try reflexivity.
Qed.

Lemma leb_nan_r (x : double) : leb x S754_nan = false.
Proof. now destruct x. Qed.

Lemma add_nan_r (x : double) : add x S754_nan = S754_nan.
Proof. now destruct x. Qed.

Lemma sub_nan_r (x : double) : sub x S754_nan = S754_nan.
Proof. now destruct x. Qed.

Lemma sub_opp_abs (x y : double) :
  SFabs (sub (SFopp x) (SFopp y)) = SFabs (sub x y).
Proof.
  destruct x as [sx|sx| |sx mx ex], y as [sy|sy| |sy my ey]; simpl; trivial;
    try (now destruct sx, sy).
  rewrite <- (binary_normalize_opp_abs _ _ false false).
  f_equal; f_equal. destruct sx, sy; simpl; lia.
Qed.

(** ** More about the metric *)

Lemma sum_from_nan (l : sample_typ) : fold_left add l S754_nan = S754_nan.
Proof. induction l as [|x l IH]; simpl; trivial. Qed.

Lemma sum_with_nan (l : sample_typ) :
  forall acc, existsb is_nan l = true -> fold_left add l acc = S754_nan.
Proof.
  induction l as [|x l IH]; simpl; intros acc H; try discriminate.
  destruct x as [s|s| |s mx ex]; simpl in H; auto.
  rewrite add_nan_r. apply sum_from_nan.
Qed.

Lemma squared_with_nan (d : sample_typ) :
  existsb is_nan d = true -> existsb is_nan (squared d) = true.
Proof.
  induction d as [|x d IH]; simpl; trivial.
  destruct x as [s|s| |s mx ex]; simpl; trivial;
    intros H; rewrite (IH H); apply orb_true_r.
Qed.

Lemma matrix_subtract_with_nan (a : sample_typ) :
  forall b d, matrix_subtract a b = Some d ->
    existsb is_nan a || existsb is_nan b = true ->
    existsb is_nan d = true.
Proof.
  induction a as [|x a IH]; intros [|y b] d; simpl; try discriminate.
  destruct (matrix_subtract a b) as [v|] eqn:E; try discriminate.
  intros [= <-] H; simpl.
  destruct (is_nan x) eqn:Hx.
  { destruct x; try discriminate. reflexivity. }
  destruct (is_nan y) eqn:Hy.
  { destruct y; try discriminate. now rewrite sub_nan_r. }
  simpl in H. rewrite (IH b v E H). apply orb_true_r.
Qed.

Lemma len_with_nan (a b : sample_typ) :
  length a = length b ->
  existsb is_nan a || existsb is_nan b = true ->
  len a b = Some S754_nan.
Proof.
  intros Hl Hn. unfold len, length_squared, sum.
  destruct (matrix_subtract_total a b Hl) as (d & Hd & _). rewrite Hd.
  rewrite (sum_with_nan (squared d) zero); trivial.
  apply squared_with_nan, (matrix_subtract_with_nan a b d Hd Hn).
Qed.

Lemma matrix_subtract_negate (a : sample_typ) :
  forall b d, matrix_subtract a b = Some d ->
    exists d', matrix_subtract (negate a) (negate b) = Some d' /\
               squared d' = squared d.
Proof.
  unfold negate.
  induction a as [|x a IH]; intros [|y b] d; simpl; try discriminate.
  - intros [= <-]; now exists [].
  - destruct (matrix_subtract a b) as [v|] eqn:E; try discriminate.
    intros [= <-]. destruct (IH b v E) as (v' & Hv' & Hsq).
    rewrite Hv'.
    eexists; split; [reflexivity|]; simpl.
    rewrite Hsq; f_equal. apply mul_abs_eq, sub_opp_abs.
Qed.

Lemma len_negate (a b : sample_typ) : len (negate a) (negate b) = len a b.
Proof.
  unfold len, length_squared.
  destruct (matrix_subtract a b) as [d|] eqn:E.
  - destruct (matrix_subtract_negate a b d E) as (d' & -> & ->); reflexivity.
  - destruct (matrix_subtract (negate a) (negate b)) as [d'|] eqn:E'; trivial.
    apply matrix_subtract_same_length in E'.
    unfold negate in E'; rewrite !length_map in E'.
    destruct (matrix_subtract_total a b E') as (d & Hd & _); congruence.
Qed.

(** X1. Whatever the bounds and whatever the entries of equal-length vectors
    (infinities and NaNs included), the value [operator()] returns is never a
    NaN; and when the lower bound is not below zero, the value is not below
    zero either. *)
Theorem metric_never_nan (f : euclidean_distance) (a b : sample_typ)
  (r : double) :
  operator_call f a b = Some r ->
  is_nan r = false /\ (leb zero (lower f) = true -> ltb r zero = false).
Proof.
  intros Hr; split.
  - exact (operator_call_not_nan f a b r Hr).
  - intros H0. exact (operator_call_not_negative f a b r H0 Hr).
Qed.

Lemma metric_never_nan_witness :
  is_nan infinity = false /\
  (leb zero (lower (euclidean_distance_bounds S754_nan one)) = true ->
   ltb infinity zero = false).
Proof.
  apply (metric_never_nan (euclidean_distance_bounds S754_nan one)
           [S754_nan; one] [infinity; two] infinity).
  reflexivity.
Defined.

(** X2. If any entry of either vector is a NaN, the metric excludes the
    pair: it returns +infinity for all bounds. *)
Theorem nan_entry_excluded (f : euclidean_distance) (a b : sample_typ) :
  length a = length b ->
  existsb is_nan a || existsb is_nan b = true ->
  operator_call f a b = Some infinity.
Proof.
  intros Hl Hn. unfold operator_call.
  rewrite (len_with_nan a b Hl Hn), leb_nan_r. reflexivity.
Qed.

Lemma nan_entry_excluded_witness :
  operator_call euclidean_distance_default [one; S754_nan] [one; two]
  = Some infinity.
Proof.
  apply (nan_entry_excluded euclidean_distance_default
           [one; S754_nan] [one; two]); reflexivity.
Defined.

(** X3. [euclidean_distance (l, u)] stores its bounds unchecked.  When
    [l <= u] does not hold (the bounds are swapped, or one is a NaN), the
    metric excludes every pair of equal-length vectors. *)
Theorem disordered_bounds_exclude (f : euclidean_distance) (a b : sample_typ) :
  leb (lower f) (upper f) = false ->
  length a = length b ->
  operator_call f a b = Some infinity.
Proof.
  intros Hlu Hl. unfold operator_call, len.
  destruct (matrix_subtract_total a b Hl) as (d & -> & _).
  set (x := sqrt (length_squared d)).
  destruct (leb (lower f) x) eqn:E1; trivial.
  destruct (leb x (upper f)) eqn:E2; trivial.
  rewrite (leb_trans _ _ _ E1 E2) in Hlu. discriminate.
Qed.

Lemma disordered_bounds_exclude_witness :
  operator_call (euclidean_distance_bounds two one) [zero; zero] [one; one]
  = Some infinity.
Proof.
  apply (disordered_bounds_exclude (euclidean_distance_bounds two one)
           [zero; zero] [one; one]); reflexivity.
Defined.

(** X4. Widening the bounds keeps every admitted distance: if the metric
    with bounds [f] returns a value other than +infinity, the metric with
    any bounds [g] that contain those of [f] returns the same value. *)
Theorem wider_bounds_keep (f g : euclidean_distance) (a b : sample_typ)
  (r : double) :
  leb (lower g) (lower f) = true -> leb (upper f) (upper g) = true ->
  operator_call f a b = Some r -> r <> infinity ->
  operator_call g a b = Some r.
Proof.
  intros Hlo Hup. unfold operator_call.
  destruct (len a b) as [d|]; try discriminate.
  destruct (leb (lower f) d) eqn:E1; simpl;
    [destruct (leb d (upper f)) eqn:E2|]; intros [= <-] Hr;
    try (now destruct Hr).
  now rewrite (leb_trans _ _ _ Hlo E1), (leb_trans _ _ _ E2 Hup).
Qed.

Lemma wider_bounds_keep_witness :
  operator_call (euclidean_distance_bounds zero infinity) [one] [two]
  = Some one.
Proof.
  apply (wider_bounds_keep (euclidean_distance_bounds one two)
           (euclidean_distance_bounds zero infinity) [one] [two] one);
    try reflexivity.
  discriminate.
Defined.

(** X5. Negating both vectors leaves the metric unchanged, for all bounds
    and all vectors. *)
Theorem metric_negation_invariant (f : euclidean_distance) (a b : sample_typ) :
  operator_call f (negate a) (negate b) = operator_call f a b.
Proof. unfold operator_call. now rewrite len_negate. Qed.

(** ** More about staging *)

Lemma lookup_map_seq {A : Type} (g : nat -> A) (n : nat) :
  forall s i, i < n -> map g (seq s n) !! i = Some (g (s + i)).
Proof.
  induction n as [|n IH]; intros s [|i] Hi; simpl; try lia.
  - now rewrite Nat.add_0_r.
  - rewrite (IH (S s) i) by lia. do 2 f_equal; lia.
Qed.

Lemma column_length (M : mat) (i : nat) :
  mat_wf M -> i < n_cols M -> length (column M i) = n_rows M.
Proof.
  intros Hwf Hi. unfold column. apply length_take_le.
  rewrite length_drop, Hwf. nia.
Qed.

Lemma column_lookup (M : mat) (i j : nat) :
  j < n_rows M -> column M i !! j = mat_at M j i.
Proof.
  intros Hj. unfold column, mat_at.
  rewrite lookup_take_lt by trivial. rewrite lookup_drop.
  f_equal; lia.
Qed.

(** The staging loop with its reused buffer computes the list of columns. *)
Lemma stage_columns_eq (M : mat) (junk : nat -> double) :
  mat_wf M ->
  exists st',
    stage (locals_init M junk) = Some st' /\ samples_train st' = columns M.
Proof.
  intros Hwf.
  destruct (stage_spec M Hwf junk) as (st' & Hrun & _ & Hlen & Hcols).
  exists st'; split; trivial.
  apply (list_eq_same_length _ _ (n_cols M)); trivial.
  { unfold columns. now rewrite length_map, length_seq. }
  intros i x y Hi Hx Hy.
  destruct (Hcols i Hi) as (s & Hs & Hls & Hsj).
  unfold columns in Hy. rewrite (lookup_map_seq _ _ 0 i Hi) in Hy.
  simpl in Hy. rewrite Hs in Hx.
  injection Hx as <-. injection Hy as <-.
  apply (list_eq_same_length _ _ (n_rows M)); trivial.
  { now apply column_length. }
  intros j u v Hj Hu Hv.
  rewrite (Hsj j Hj), <- (column_lookup M i j Hj) in Hu. congruence.
Qed.

Lemma concat_chunks (R C : nat) :
  forall l : sample_typ, length l = R * C ->
    concat (map (fun i => take R (drop (i * R) l)) (seq 0 C)) = l.
Proof.
  induction C as [|C IH]; intros l Hl.
  - destruct l; trivial. simpl in Hl; lia.
  - simpl. rewrite <- seq_shift, map_map.
    rewrite (map_ext _ (fun i => take R (drop (i * R) (drop R l)))).
    + rewrite IH; [apply take_drop|]. rewrite length_drop; nia.
    + intros i. now rewrite drop_drop.
Qed.

(** X6. For every loaded matrix, and whatever the fresh buffer [m] holds
    after [set_size], the loop that reuses [m] for every column stages
    exactly the list of the matrix's columns: no uninitialised entry and no
    entry of another column reaches [samples_train]. *)
Theorem stage_is_columns (M : mat) (junk : nat -> double) :
  mat_wf M ->
  option_map samples_train (stage (locals_init M junk)) = Some (columns M).
Proof.
  intros Hwf.
  destruct (stage_columns_eq M junk Hwf) as (st' & -> & Hs).
  simpl. now rewrite Hs.
Qed.

Lemma stage_is_columns_witness :
  option_map samples_train
    (stage (locals_init scenario_matrix (fun _ => S754_nan)))
  = Some (columns scenario_matrix).
Proof.
  apply (stage_is_columns scenario_matrix (fun _ => S754_nan)). reflexivity.
Defined.

(** X7. Staging loses nothing: for every loaded matrix, the staged samples
    laid end to end are the matrix's memory, entry for entry. *)
Theorem staged_samples_flatten (M : mat) (junk : nat -> double) :
  mat_wf M ->
  exists st',
    stage (locals_init M junk) = Some st' /\
    concat (samples_train st') = mem M.
Proof.
  intros Hwf.
  destruct (stage_columns_eq M junk Hwf) as (st' & Hrun & Hs).
  exists st'; split; trivial.
  rewrite Hs. unfold columns, column.
  apply concat_chunks. rewrite Hwf; lia.
Qed.

Lemma staged_samples_flatten_witness :
  exists st',
    stage (locals_init scenario_matrix (fun _ => zero)) = Some st' /\
    concat (samples_train st') = mem scenario_matrix.
Proof.
  apply (staged_samples_flatten scenario_matrix (fun _ => zero)). reflexivity.
Defined.

(** ** More about the driver *)

Lemma size_t_of_int_cases (n : Z) :
  (int_min <= n <= int_max)%Z ->
  (n < 0 /\ size_t_of_int n = n + 2 ^ 64)%Z \/
  (0 <= n /\ size_t_of_int n = n)%Z.
Proof.
  unfold int_max; intros Hn.
  destruct (Z_lt_le_dec n 0) as [Hneg|Hpos].
  - left; split; trivial. apply size_t_of_negative_int; lia.
  - right; split; trivial. unfold size_t_of_int. apply Z.mod_small; lia.
Qed.

(** X8. The conversion of [k] from [int] to [size_t] keeps non-negative
    values as they are, always lands in the range of [size_t], and sends
    different [int]s to different counts. *)
Theorem k_conversion_faithful (n1 n2 : Z) :
  (int_min <= n1 <= int_max)%Z -> (int_min <= n2 <= int_max)%Z ->
  (size_t_of_int n1 = size_t_of_int n2 -> n1 = n2) /\
  ((0 <= n1)%Z -> size_t_of_int n1 = n1) /\
  (0 <= size_t_of_int n1 < 2 ^ 64)%Z.
Proof.
  intros H1 H2.
  pose proof (size_t_of_int_cases n1 H1) as C1.
  pose proof (size_t_of_int_cases n2 H2) as C2.
  unfold int_min, int_max in *. lia.
Qed.

Lemma k_conversion_faithful_witness :
  (size_t_of_int 5 = size_t_of_int (-5) -> 5%Z = (-5)%Z) /\
  ((0 <= 5)%Z -> size_t_of_int 5 = 5%Z) /\
  (0 <= size_t_of_int 5 < 2 ^ 64)%Z.
Proof.
  apply (k_conversion_faithful 5 (-5)); unfold int_min, int_max; lia.
Defined.

(** X9. In every run, whatever the loader and the search do, the driver
    returns normally exactly when the "Nearest_Neighbors" timer has been
    stopped: a failure of the loader, of staging or of the search leaves the
    trace without a stop. *)
Theorem returns_iff_timer_stopped
  (Load : string -> outcome mat)
  (search : list sample_typ -> euclidean_distance -> Z ->
            outcome (list sample_pair))
  (junk : nat -> double) (args : cli)
  (o : outcome (list sample_pair)) (t : list event) :
  mlpackMain Load search junk args [] = (o, t) ->
  is_returned o = true <-> In (Timer_Stop "Nearest_Neighbors") t.
Proof.
  intros Hrun.
  destruct (Load (reference_file args)) as [M|e] eqn:HL.
  - destruct (stage (locals_init M junk)) as [st|] eqn:Hst.
    + rewrite (mlpackMain_after_staging Load search junk args M st HL Hst)
        in Hrun.
      simpl in Hrun.
      destruct (search _ _ _); injection Hrun as <- <-; simpl.
      * split; auto 10.
      * split; [discriminate|]. intuition discriminate.
    + rewrite (mlpackMain_staging_failure Load search junk args M HL Hst)
        in Hrun.
      injection Hrun as <- <-; simpl.
      split; [discriminate|]. intuition discriminate.
  - rewrite (mlpackMain_load_failure Load search junk args e HL) in Hrun.
    injection Hrun as <- <-; simpl. split; [discriminate|tauto].
Qed.

Lemma returns_iff_timer_stopped_witness :
  is_returned (@Thrown (list sample_pair) "search failed") = true <->
  In (Timer_Stop "Nearest_Neighbors")
     [Log_Info "data.csv" 2 3;
      Timer_Start "Nearest_Neighbors";
      Search_call [[zero; zero]; [one; one]; [two; two]]
        euclidean_distance_default 1].
Proof.
  apply (returns_iff_timer_stopped load_scenario failing_search
           (fun _ => zero) scenario_args).
  reflexivity.
Defined.

(** X10. Once a well-formed matrix is loaded, the driver calls the search
    exactly once, on the list of the matrix's columns, with the default
    metric and the converted [k]; the outcome of that call is the outcome of
    the run.  None of this depends on what the fresh buffer held. *)
Theorem search_receives_columns
  (Load : string -> outcome mat)
  (search : list sample_typ -> euclidean_distance -> Z ->
            outcome (list sample_pair))
  (junk : nat -> double) (args : cli) (M : mat) :
  Load (reference_file args) = Returned M -> mat_wf M ->
  let k := size_t_of_int (k_param args) in
  filter (fun e => is_search_call e = true)
         (snd (mlpackMain Load search junk args []))
  = [Search_call (columns M) euclidean_distance_default k] /\
  fst (mlpackMain Load search junk args [])
  = search (columns M) euclidean_distance_default k.
Proof.
  intros HL Hwf k.
  destruct (stage_columns_eq M junk Hwf) as (st & Hst & Hs).
  rewrite (mlpackMain_after_staging Load search junk args M st HL Hst).
  cbv zeta. rewrite Hs. fold k.
  destruct (search (columns M) euclidean_distance_default k);
    split; reflexivity.
Qed.

Lemma search_receives_columns_witness :
  let k := size_t_of_int (k_param scenario_args) in
  filter (fun e => is_search_call e = true)
         (snd (mlpackMain load_scenario failing_search (fun _ => S754_nan)
                 scenario_args []))
  = [Search_call (columns scenario_matrix) euclidean_distance_default k] /\
  fst (mlpackMain load_scenario failing_search (fun _ => S754_nan)
         scenario_args [])
  = failing_search (columns scenario_matrix) euclidean_distance_default k.
Proof.
  apply (search_receives_columns load_scenario failing_search
           (fun _ => S754_nan) scenario_args scenario_matrix); reflexivity.
Defined.

(** ** How staging and the metric fit together *)

Lemma columns_length (M : mat) (s : sample_typ) :
  mat_wf M -> In s (columns M) -> length s = n_rows M.
Proof.
  intros Hwf H. unfold columns in H.
  apply in_map_iff in H as (i & <- & Hi%in_seq).
  apply column_length; trivial; lia.
Qed.

(** X11. For every loaded matrix, staging completes and any two samples it
    leaves in [samples_train] have the length [n_rows], so the metric is
    defined on each pair the search can form: the requirement of [a - b] is
    never broken, whatever the bounds and whatever the fresh buffer held. *)
Theorem staged_samples_comparable (M : mat) (junk : nat -> double)
  (f : euclidean_distance) :
  mat_wf M ->
  exists st',
    stage (locals_init M junk) = Some st' /\
    forall s1 s2 : sample_typ,
      In s1 (samples_train st') -> In s2 (samples_train st') ->
      length s1 = n_rows M /\ length s2 = n_rows M /\
      exists r, operator_call f s1 s2 = Some r.
Proof.
  intros Hwf.
  destruct (stage_columns_eq M junk Hwf) as (st' & Hrun & Hs).
  exists st'; split; trivial. rewrite Hs.
  intros s1 s2 H1 H2.
  pose proof (columns_length M s1 Hwf H1) as L1.
  pose proof (columns_length M s2 Hwf H2) as L2.
  repeat split; trivial.
  apply operator_call_total. congruence.
Qed.

Lemma staged_samples_comparable_witness :
  exists st',
    stage (locals_init scenario_matrix (fun _ => S754_nan)) = Some st' /\
    forall s1 s2 : sample_typ,
      In s1 (samples_train st') -> In s2 (samples_train st') ->
      length s1 = n_rows scenario_matrix /\
      length s2 = n_rows scenario_matrix /\
      exists r,
        operator_call (euclidean_distance_bounds zero one) s1 s2 = Some r.
Proof.
  apply (staged_samples_comparable scenario_matrix (fun _ => S754_nan)
           (euclidean_distance_bounds zero one)).
  reflexivity.
Defined.

(** ** Coordinates on which the vectors agree *)

Lemma matrix_subtract_app (a1 : sample_typ) :
  forall b1 a2 b2, length a1 = length b1 ->
    matrix_subtract (a1 ++ a2) (b1 ++ b2) =
    match matrix_subtract a1 b1, matrix_subtract a2 b2 with
    | Some d1, Some d2 => Some (d1 ++ d2)
    | _, _ => None
    end.
Proof.
  induction a1 as [|x a1 IH]; intros [|y b1] a2 b2 Hl; try discriminate.
  - simpl. now destruct (matrix_subtract a2 b2).
  - injection Hl as Hl. simpl. rewrite (IH b1 a2 b2 Hl).
    destruct (matrix_subtract a1 b1); trivial.
    now destruct (matrix_subtract a2 b2).
Qed.

(** A running sum of squares is a NaN or carries a clear sign bit. *)
Lemma sum_squares_shape (d : sample_typ) :
  forall acc, is_nan acc || signed_as false acc = true ->
    is_nan (fold_left add (squared d) acc)
    || signed_as false (fold_left add (squared d) acc) = true.
Proof.
  induction d as [|x d IH]; simpl; intros acc H; trivial.
  apply IH.
  destruct (is_nan x) eqn:Hx.
  { destruct x; try discriminate. now rewrite add_nan_r. }
  destruct (is_nan acc) eqn:Ha.
  { destruct acc; try discriminate. reflexivity. }
  simpl in H.
  rewrite (add_signed _ _ H (mul_self_signed x Hx)). apply orb_true_r.
Qed.

Lemma add_zero_r (acc : double) :
  is_nan acc || signed_as false acc = true -> add acc zero = acc.
Proof. destruct acc as [[]|[]| |[] mx ex]; try discriminate; reflexivity. Qed.

(** X12. A coordinate at which both vectors hold the same finite value does
    not change the metric: removing it from both vectors gives the same
    result, for all bounds and whatever the other entries are. *)
Theorem agreeing_coordinate_ignored (f : euclidean_distance)
  (a1 a2 b1 b2 : sample_typ) (x : double) :
  is_finite x = true -> length a1 = length b1 ->
  operator_call f (a1 ++ x :: a2) (b1 ++ x :: b2)
  = operator_call f (a1 ++ a2) (b1 ++ b2).
Proof.
  intros Hx Hl. unfold operator_call, len.
  rewrite !(matrix_subtract_app a1 b1) by trivial. simpl.
  destruct (matrix_subtract a1 b1) as [d1|]; trivial.
  destruct (matrix_subtract a2 b2) as [d2|]; trivial.
  rewrite (sub_diag x Hx).
  unfold length_squared, sum, squared.
  rewrite !map_app, !fold_left_app. simpl.
  change (mul zero zero) with zero.
  rewrite add_zero_r; trivial.
  apply (sum_squares_shape d1 zero). reflexivity.
Qed.

Lemma agreeing_coordinate_ignored_witness :
  operator_call euclidean_distance_default
    ([zero] ++ two_pow_600 :: [one]) ([one] ++ two_pow_600 :: [two])
  = operator_call euclidean_distance_default ([zero] ++ [one]) ([one] ++ [two]).
Proof.
  apply (agreeing_coordinate_ignored euclidean_distance_default
           [zero] [one] [one] [two] two_pow_600); reflexivity.
Defined.
